(** * SmartThings fan platform (custom_components/smartthings/fan.py)

    A shallow embedding of the fan platform of the SmartThings integration
    and the properties its specification states about it.

    The module is glue code: it reads attributes of a remote device, converts
    between percentages and discrete speeds, and calls methods of the device
    library and of the host platform.  The embedding therefore has three
    layers:

    - Python values, [int()] and the exceptions it raises;
    - the helpers imported from [homeassistant.util.percentage];
    - the two entity classes, whose methods run in a small state monad that
      records every call made on a collaborator. *)

From Stdlib Require Import ZArith QArith Qround Lia List String Ascii Bool.
From stdpp Require Import gmap strings.
Import ListNotations.

Local Open Scope string_scope.
Local Open Scope Z_scope.

(** ** Python values and exceptions *)

(** The values an attribute of a device status can hold, as far as the
    module inspects them.  Floating-point values are left out. *)
Inductive PyVal : Type :=
| VNone
| VBool (b : bool)
| VInt (z : Z)
| VStr (s : string).

Inductive PyExc : Type :=
| TypeError
| ValueError
| KeyError.

Inductive result (A : Type) : Type :=
| Ok (a : A)
| Raise (e : PyExc).

Arguments Ok {A} a.
Arguments Raise {A} e.

Definition rbind {A B : Type} (r : result A) (k : A -> result B) : result B :=
  match r with
  | Ok a => k a
  | Raise e => Raise e
  end.

(** Truth value of an object in a condition ([if x:], [bool(x)]). *)
Definition truthy (v : PyVal) : bool :=
  match v with
  | VNone => false
  | VBool b => b
  | VInt z => negb (z =? 0)
  | VStr s => negb (String.eqb s "")
  end.

(** *** [int(x)]

    [int] of a string strips white space, reads an optional sign and then
    decimal digits, where single underscores may separate digits.  Strings
    are byte strings here, so only the ASCII digits and the ASCII white
    space (tab, line feed, vertical tab, form feed, carriage return and
    space) are recognised. *)

Definition is_space (c : ascii) : bool :=
  let n := Z.of_nat (nat_of_ascii c) in
  ((9 <=? n) && (n <=? 13)) || (n =? 32).

Definition digit_of (c : ascii) : option Z :=
  let n := Z.of_nat (nat_of_ascii c) in
  if (48 <=? n) && (n <=? 57) then Some (n - 48) else None.

Fixpoint lstrip (s : list ascii) : list ascii :=
  match s with
  | c :: s' => if is_space c then lstrip s' else s
  | [] => []
  end.

Definition strip (s : list ascii) : list ascii :=
  rev (lstrip (rev (lstrip s))).

(** [digits acc prev s]: the number read so far is [acc]; [prev] tells
    whether the previous character was a digit (an underscore must stand
    between two digits). *)
Fixpoint digits (acc : Z) (prev : bool) (s : list ascii) : option Z :=
  match s with
  | [] => if prev then Some acc else None
  | c :: s' =>
      match digit_of c with
      | Some d => digits (acc * 10 + d) true s'
      | None =>
          if Ascii.eqb c "_"%char && prev then digits acc false s' else None
      end
  end.

Definition int_of_str (s : string) : result Z :=
  let body := strip (list_ascii_of_string s) in
  let parsed :=
    match body with
    | c :: rest =>
        if Ascii.eqb c "-"%char then option_map Z.opp (digits 0 false rest)
        else if Ascii.eqb c "+"%char then digits 0 false rest
        else digits 0 false body
    | [] => None
    end in
  match parsed with
  | Some z => Ok z
  | None => Raise ValueError
  end.

Definition py_int (v : PyVal) : result Z :=
  match v with
  | VNone => Raise TypeError
  | VBool b => Ok (if b then 1 else 0)
  | VInt z => Ok z
  | VStr s => int_of_str s
  end.

(** ** [homeassistant.util.percentage]

    The three helpers the module imports.  They belong to the host platform,
    not to this repository; they are written here as the platform defines
    them:
<<
    def states_in_range(low_high_range):
        return low_high_range[1] - low_high_range[0] + 1
    def int_states_in_range(low_high_range):
        return int(states_in_range(low_high_range))
    def ranged_value_to_percentage(low_high_range, value):
        offset = low_high_range[0] - 1
        return int(((value - offset) * 100) // states_in_range(low_high_range))
    def percentage_to_ranged_value(low_high_range, percentage):
        offset = low_high_range[0] - 1
        return states_in_range(low_high_range) * percentage / 100 + offset
>>
    [//] on integers is floor division, which is [Z.div].  [/] is true
    division: its result is a rational number here, exactly, where the
    platform computes a double.  For a range that starts at 1 the two have
    the same [math.ceil] as long as the product of the number of states and
    the percentage is below 2^53 in absolute value ([double_exact]): an
    integer quotient is exact, and any other quotient is at least 1/100 away
    from an integer, more than the rounding can bridge below 2^47.  Beyond
    that the double may round across an integer, and for very large products
    the platform raises [OverflowError]; properties that depend on the value
    there carry [double_exact] as a hypothesis.  Every range the module
    passes to [ranged_value_to_percentage] has three states, so that
    division is never a division by zero. *)

Definition states_in_range (low_high_range : Z * Z) : Z :=
  snd low_high_range - fst low_high_range + 1.

Definition int_states_in_range (low_high_range : Z * Z) : Z :=
  states_in_range low_high_range.

Definition ranged_value_to_percentage (low_high_range : Z * Z) (value : Z) : Z :=
  let offset := fst low_high_range - 1 in
  ((value - offset) * 100) / states_in_range low_high_range.

Definition percentage_to_ranged_value (low_high_range : Z * Z) (percentage : Z) : Q :=
  let offset := fst low_high_range - 1 in
  (inject_Z (states_in_range low_high_range * percentage) / inject_Z 100
   + inject_Z offset)%Q.

(** [math.ceil] *)
Definition math_ceil (x : Q) : Z := Qceiling x.

(** The products of states and percentage on which the exact quotient and
    the platform's double have the same ceiling. *)
Definition double_exact (product : Z) : bool := Z.abs product <? 2 ^ 53.

(** ** The device library, as the module uses it

    [from pysmartthings import Capability, DeviceEntity, DeviceStatusBase].
    Only what the module reads is kept. *)
Module pysmartthings.

Module Capability.
Definition switch : string := "switch".
Definition fan_speed : string := "fanSpeed".
End Capability.

(** An entry of [attributes]: a named tuple with a [value] field.  A
    non-empty tuple is true in a condition whatever its fields hold. *)
Record Attribute : Type := mkAttribute { value : PyVal }.

(** The status of one component.  [is_on name] is the library's reading of
    an attribute as on or off. *)
Record DeviceStatusBase : Type := mkDeviceStatusBase {
  attributes : gmap string Attribute;
  is_on : string -> bool
}.

(** The status of a device: the main component's switch and fan speed, and
    the other components by name. *)
Record DeviceStatus : Type := mkDeviceStatus {
  switch : bool;
  fan_speed : Z;
  components : gmap string DeviceStatusBase
}.

Record DeviceEntity : Type := mkDeviceEntity {
  device_id : string;
  capabilities : list string;
  status : DeviceStatus
}.

End pysmartthings.
Import pysmartthings.

(** The broker of a config entry: its devices by id, in insertion order, and
    the platforms assigned to each device. *)
Record DeviceBroker : Type := mkDeviceBroker {
  devices : list (string * DeviceEntity);
  any_assigned : string -> string -> bool
}.

(** ** Calls on collaborators

    The methods of an entity act on the world only through calls on the
    device and on the entity base class.  A run records them in order. *)
Inductive Call : Type :=
| switch_on (set_status : bool)
| switch_off (set_status : bool)
| set_fan_speed (value : Z) (set_status : bool)
| command (component_id capability command : string)
          (args : list (list (string * PyVal)))
| async_write_ha_state
| async_update_ha_state (force_refresh : bool).

(** A call is either awaited ([await f(...)]) or written as a plain
    expression statement ([f(...)]), as the source has it. *)
Inductive Event : Type :=
| Await (c : Call)
| Plain (c : Call).

Definition call_of (e : Event) : Call :=
  match e with Await c | Plain c => c end.

(** The calls of a record that were awaited, in order.  A plain call runs
    only when the callee is an ordinary function; a coroutine function called
    as a plain statement returns a coroutine that is dropped without being
    run. *)
Definition awaited (events : list Event) : list Call :=
  flat_map (fun e => match e with Await c => [c] | Plain _ => [] end) events.

(** What a call does to the objects the collaborators own is theirs to
    decide: the device library may update the device's status and the
    component a reference points to.  Nothing is assumed about it. *)
Class External : Type := mkExternal {
  on_device : Call -> DeviceEntity -> DeviceEntity;
  on_component : Call -> DeviceStatusBase -> DeviceStatusBase
}.

(** *** The monad of a method body: the object and the calls made so far *)
Record Run (Self : Type) : Type := mkRun {
  self : Self;
  log : list Event
}.
Arguments mkRun {Self} self log.
Arguments self {Self} r.
Arguments log {Self} r.

Definition M (Self A : Type) : Type := Run Self -> A * Run Self.

Definition ret {Self A : Type} (a : A) : M Self A := fun r => (a, r).

Definition bind {Self A B : Type} (m : M Self A) (k : A -> M Self B) : M Self B :=
  fun r => let (a, r') := m r in k a r'.

Definition get_self {Self : Type} : M Self Self := fun r => (self r, r).

(** A call: the collaborators act on the object's external parts through
    [touch], and the call is recorded. *)
Definition call {Self : Type} (touch : Call -> Self -> Self) (e : Event) : M Self unit :=
  fun r => (tt, mkRun (touch (call_of e) (self r)) (log r ++ [e])).

(** The object and the calls after running [m] on a fresh record. *)
Definition exec {Self A : Type} (m : M Self A) (s : Self) : Run Self :=
  snd (m (mkRun s [])).

Declare Scope py_scope.
Delimit Scope py_scope with py.
Notation "x <- m ;; k" := (bind m (fun x => k))
  (at level 100, m at next level, right associativity) : py_scope.
Notation "m ;; k" := (bind m (fun _ => k))
  (at level 100, right associativity) : py_scope.

(** ** The module *)

Definition SUPPORT_SET_SPEED : Z := 1.

Definition SPEED_RANGE : Z * Z := (1, 3).  (* off is not included *)

Definition STANDARD_FAN_CAPABILITIES : list string :=
  [Capability.switch; Capability.fan_speed].
Definition HOOD_FAN_CAPABILITY : string := "samsungce.hoodFanSpeed".

(** [x in xs] on a sequence of strings. *)
Definition py_in (x : string) (xs : list string) : bool :=
  existsb (String.eqb x) xs.

(** [None] is the value of a call that falls off the end of the body. *)
Definition get_capabilities (capabilities : list string) : option (list string) :=
  if py_in HOOD_FAN_CAPABILITY capabilities then Some [HOOD_FAN_CAPABILITY]
  else if forallb (fun capability => py_in capability capabilities)
                  STANDARD_FAN_CAPABILITIES
  then Some STANDARD_FAN_CAPABILITIES
  else None.

(** *** class SmartThingsHoodFan *)
Module SmartThingsHoodFan.

Definition _hood_fan_component_id : string := "hood".

Record t : Type := mk {
  _device : DeviceEntity;
  _hood : option DeviceStatusBase;
  _current_speed : Z;
  _max_speed : Z
}.

(** [attributes.get(name, None)] is an attribute or [None]; an attribute is
    true in a condition, so the value is converted whenever the key is
    there, and the conversion may raise. *)
Definition __init__ (device : DeviceEntity) : result t :=
  let hood := components (status device) !! "hood" in
  let current_speed := 0 in
  let max_speed := 5 in
  match hood with
  | Some h =>
      rbind (match attributes h !! "settableMaxFanSpeed" with
             | Some a => py_int (value a)
             | None => Ok max_speed
             end) (fun max_speed =>
      rbind (match attributes h !! "hoodFanSpeed" with
             | Some a => py_int (value a)
             | None => Ok current_speed
             end) (fun current_speed =>
      Ok (mk device hood current_speed max_speed)))
  | None => Ok (mk device hood current_speed max_speed)
  end.

(** The collaborators reach the device and the component behind [_hood];
    the two cached speeds are the entity's own. *)
Definition touch `{External} (c : Call) (s : t) : t :=
  mk (on_device c (_device s)) (option_map (on_component c) (_hood s))
     (_current_speed s) (_max_speed s).

Definition async_set_percentage `{External} (percentage : option Z) : M t unit :=
  (s <- get_self ;;
   let speed :=
     match percentage with
     | None => _max_speed s
     | Some p =>
         if p =? 0 then 0
         else math_ceil (percentage_to_ranged_value (1, _max_speed s) p)
     end in
   call touch (Plain (command _hood_fan_component_id
                              "samsungce.hoodFanSpeed"
                              "setHoodFanSpeed"
                              [[("speed", VInt speed)]])) ;;
   call touch (Plain async_write_ha_state))%py.

(** The body returns the library's answer when the component is there and
    falls off its end otherwise. *)
Definition is_on (s : t) : PyVal :=
  match _hood s with
  | Some h => VBool (pysmartthings.is_on h "hoodFanSpeed")
  | None => VNone
  end.

Definition percentage (s : t) : Z :=
  ranged_value_to_percentage SPEED_RANGE (_current_speed s).

Definition speed_count (s : t) : Z := _max_speed s.

Definition supported_features (s : t) : Z := SUPPORT_SET_SPEED.

Definition async_turn_on `{External}
    (speed : option string) (percentage : option Z)
    (preset_mode : option string) : M t unit :=
  async_set_percentage percentage.

Definition async_turn_off `{External} : M t unit :=
  async_set_percentage (Some 0).

End SmartThingsHoodFan.

(** *** class SmartThingsFan *)
Module SmartThingsFan.

Record t : Type := mk { _device : DeviceEntity }.

Definition touch `{External} (c : Call) (s : t) : t :=
  mk (on_device c (_device s)).

Definition async_set_percentage `{External} (percentage : option Z) : M t unit :=
  (match percentage with
   | None => call touch (Await (switch_on true))
   | Some p =>
       if p =? 0 then call touch (Await (switch_off true))
       else
         let value := math_ceil (percentage_to_ranged_value SPEED_RANGE p) in
         call touch (Await (set_fan_speed value true))
   end ;;
   call touch (Plain (async_update_ha_state true)))%py.

Definition async_turn_on `{External}
    (speed : option string) (percentage : option Z)
    (preset_mode : option string) : M t unit :=
  async_set_percentage percentage.

Definition async_turn_off `{External} : M t unit :=
  (call touch (Await (switch_off true)) ;;
   call touch (Plain async_write_ha_state))%py.

Definition is_on (s : t) : bool := switch (status (_device s)).

Definition percentage (s : t) : Z :=
  ranged_value_to_percentage SPEED_RANGE (fan_speed (status (_device s))).

Definition speed_count (s : t) : Z := int_states_in_range SPEED_RANGE.

Definition supported_features (s : t) : Z := SUPPORT_SET_SPEED.

End SmartThingsFan.

(** An entity handed to the platform is of one of the two classes. *)
Inductive FanEntity : Type :=
| Fan (f : SmartThingsFan.t)
| HoodFan (h : SmartThingsHoodFan.t).

(** [brokers] is [hass.data[DOMAIN][DATA_BROKERS]]; the result is the list
    passed to [async_add_entities]. *)
Definition async_setup_entry (brokers : gmap string DeviceBroker)
    (entry_id : string) : result (list FanEntity) :=
  match brokers !! entry_id with
  | Some broker =>
      Ok (List.map (fun device => Fan (SmartThingsFan.mk device))
            (List.filter (fun device => any_assigned broker (device_id device) "fan")
               (List.map snd (devices broker))))
  | None => Raise KeyError
  end.

(** ** Sample devices and a sample library

    Concrete inputs on which the properties below are instantiated. *)

(** A library that leaves the objects as they are. *)
Definition silent : External :=
  mkExternal (fun _ device => device) (fun _ component => component).

(** A fan with the switch and fan-speed capabilities at the given speed. *)
Definition sample_fan_device (speed : Z) : DeviceEntity :=
  mkDeviceEntity "fan-1" STANDARD_FAN_CAPABILITIES
    (mkDeviceStatus (negb (speed =? 0)) speed ∅).

(** A range hood whose "hood" component has the given attributes; the
    component reads an attribute as on when its value is true. *)
Definition sample_hood_component (attrs : list (string * PyVal)) : DeviceStatusBase :=
  let table : gmap string Attribute :=
    list_to_map (List.map (fun kv => (fst kv, mkAttribute (snd kv))) attrs) in
  mkDeviceStatusBase table
    (fun name => match table !! name with
                 | Some a => truthy (value a)
                 | None => false
                 end).

Definition sample_hood_device (attrs : list (string * PyVal)) : DeviceEntity :=
  mkDeviceEntity "hood-1" [HOOD_FAN_CAPABILITY]
    (mkDeviceStatus false 0 {[ "hood" := sample_hood_component attrs ]}).

(** A device that advertises the hood capability but has no "hood"
    component in its status. *)
Definition sample_bare_device : DeviceEntity :=
  mkDeviceEntity "hood-2" [HOOD_FAN_CAPABILITY] (mkDeviceStatus false 0 ∅).

(** A broker with a hood and a standard fan, both assigned the fan
    platform, and the brokers of the one config entry "entry". *)
Definition sample_broker : DeviceBroker :=
  mkDeviceBroker
    [("hood-2", sample_bare_device); ("fan-1", sample_fan_device 2)]
    (fun _ platform => String.eqb platform "fan").

Definition sample_brokers : gmap string DeviceBroker :=
  {[ "entry" := sample_broker ]}.

(** A library that applies [set_status=True] to the status at once: the
    switch for [switch_on] and [switch_off], the speed for [set_fan_speed];
    every other call leaves the objects as they are. *)
Definition optimistic : External :=
  mkExternal
    (fun c device =>
       let st := status device in
       let with_status := mkDeviceEntity (device_id device) (capabilities device) in
       match c with
       | switch_on true =>
           with_status (mkDeviceStatus true (fan_speed st) (components st))
       | switch_off true =>
           with_status (mkDeviceStatus false (fan_speed st) (components st))
       | set_fan_speed speed true =>
           with_status (mkDeviceStatus (switch st) speed (components st))
       | _ => device
       end)
    (fun _ component => component).

(** * Properties *)

(** ** The conversion helpers on the ranges the module uses *)

Lemma states_in_SPEED_RANGE : states_in_range SPEED_RANGE = 3.
Proof. reflexivity. Qed.

(** Over a range that starts at 1, the percentage of a value is the floor of
    [value * 100 / high]. *)
Lemma ranged_value_to_percentage_from_1 (high value : Z) :
  ranged_value_to_percentage (1, high) value = (value * 100) / high.
Proof.
  unfold ranged_value_to_percentage, states_in_range. cbn [fst snd].
  f_equal; lia.
Qed.

(** Over a range that starts at 1, the speed of a percentage is the ceiling
    of [high * percentage / 100], written with integer division. *)
Lemma math_ceil_ranged_value_from_1 (high percentage : Z) :
  math_ceil (percentage_to_ranged_value (1, high) percentage)
  = - ((- (high * percentage)) / 100).
Proof.
  unfold math_ceil, percentage_to_ranged_value, states_in_range, Qceiling, Qfloor.
  cbn [fst snd].
  unfold Qdiv, Qinv, Qmult, Qplus, Qopp, inject_Z. cbn.
  do 2 f_equal. lia.
Qed.

(** A percentage in 1..100 is sent to a speed in 1..high. *)
Lemma math_ceil_ranged_value_bounds (high percentage : Z) :
  0 < high -> 0 < percentage <= 100 ->
  1 <= math_ceil (percentage_to_ranged_value (1, high) percentage) <= high.
Proof.
  intros Hhigh Hp. rewrite math_ceil_ranged_value_from_1.
  pose proof (Z.div_mod (- (high * percentage)) 100 ltac:(lia)) as Hdm.
  pose proof (Z.mod_pos_bound (- (high * percentage)) 100 ltac:(lia)) as Hm.
  nia.
Qed.


(** *** Which percentage gives which speed *)

(** The speed of a percentage over 1..high is [k] exactly when
    [high * percentage] lies in the hundred that ends at [k * 100]. *)
Lemma math_ceil_ranged_value_eq (high percentage k : Z) :
  math_ceil (percentage_to_ranged_value (1, high) percentage) = k
  <-> (k - 1) * 100 < high * percentage <= k * 100.
Proof.
  rewrite math_ceil_ranged_value_from_1.
  generalize (high * percentage). intros a.
  pose proof (Z.div_mod (- a) 100 ltac:(lia)) as Hdm.
  pose proof (Z.mod_pos_bound (- a) 100 ltac:(lia)) as Hm.
  lia.
Qed.


(** ** The standard fan *)

Section StandardFan.
Context `{External}.
Import SmartThingsFan.

(** The calls of one run of [async_set_percentage] with a percentage that
    is neither [None] nor 0. *)
Lemma fan_set_percentage_log (f : t) (p : Z) :
  p <> 0 ->
  log (exec (async_set_percentage (Some p)) f)
  = [Await (set_fan_speed
              (math_ceil (percentage_to_ranged_value SPEED_RANGE p)) true);
     Plain (async_update_ha_state true)].
Proof.
  intros Hp. unfold exec, async_set_percentage, bind, call. cbn.
  destruct (Z.eqb_spec p 0) as [E | _]; [contradiction | reflexivity].
Qed.

(** C1. For every speed [s] in 1..3 reported by the device, the percentage
  the standard fan shows for [s], given back to [async_set_percentage],
  is converted to the speed [s] again (and that speed is what the
  set-fan-speed call carries); speed 0 is shown as 0 percent. *)
Theorem fan_percentage_round_trip (f : t) (s : Z) :
fan_speed (status (_device f)) = s ->
(s = 0 -> percentage f = 0) /\
(1 <= s <= 3 ->
 math_ceil (percentage_to_ranged_value SPEED_RANGE (percentage f)) = s /\
 log (exec (async_set_percentage (Some (percentage f))) f)
 = [Await (set_fan_speed s true); Plain (async_update_ha_state true)]).
Proof.
intros Hs. unfold percentage. rewrite Hs. split.
- intros ->. reflexivity.
- intros Hrange.
  assert (Hback :
    math_ceil (percentage_to_ranged_value SPEED_RANGE
                 (ranged_value_to_percentage SPEED_RANGE s)) = s).
  { assert (Hcases : s = 1 \/ s = 2 \/ s = 3) by lia.
    destruct Hcases as [-> | [-> | ->]]; reflexivity. }
  split; [exact Hback |].
  rewrite fan_set_percentage_log.
  + rewrite Hback. reflexivity.
  + assert (Hcases : s = 1 \/ s = 2 \/ s = 3) by lia.
    destruct Hcases as [-> | [-> | ->]]; discriminate.
Qed.

(** C4, as the code has it. The first call of [async_set_percentage] is
    awaited and goes to the device with [set_status=True]: [switch_on] for
    [None], [switch_off] for 0 and, for any other percentage, [set_fan_speed]
    with the ceiling of its ranged value over 1..3.  That speed lies in 1..3
    exactly when the percentage lies in 1..100.  The value is the platform's
    as long as three times the percentage stays below 2^53. *)
Theorem fan_set_percentage_calls (f : t) :
  (exists rest : list Event,
     log (exec (async_set_percentage None) f) = Await (switch_on true) :: rest) /\
  (exists rest : list Event,
     log (exec (async_set_percentage (Some 0)) f)
     = Await (switch_off true) :: rest) /\
  (forall p : Z,
     p <> 0 ->
     double_exact (states_in_range SPEED_RANGE * p) = true ->
     let speed := math_ceil (percentage_to_ranged_value SPEED_RANGE p) in
     (exists rest : list Event,
        log (exec (async_set_percentage (Some p)) f)
        = Await (set_fan_speed speed true) :: rest) /\
     (1 <= speed <= 3 <-> 0 < p <= 100)).
Proof.
  split; [eexists; reflexivity |]. split; [eexists; reflexivity |].
  intros p Hp _. cbv zeta. split.
  - eexists. apply fan_set_percentage_log. exact Hp.
  - unfold SPEED_RANGE.
    remember (math_ceil (percentage_to_ranged_value (1, 3) p)) as k eqn:Hk.
    symmetry in Hk. apply math_ceil_ranged_value_eq in Hk. lia.
Qed.

(** Outside 1..100 nothing clamps the speed: the conversion is applied as it
    is, and the ceiling leaves the range. *)
Example fan_speed_of_percentage_101 :
  math_ceil (percentage_to_ranged_value SPEED_RANGE 101) = 4.
Proof. reflexivity. Qed.

(** C10, as the code has it. A standard fan whose device reports speed 2
  shows 66 percent, the floor of 200/3, and counts 3 speeds. *)
Theorem fan_speed_2_percentage (f : t) :
fan_speed (status (_device f)) = 2 ->
percentage f = 66 /\ speed_count f = 3.
Proof.
intros Hs. unfold percentage, speed_count. rewrite Hs. split; reflexivity.
Qed.

End StandardFan.

Lemma fan_percentage_round_trip_witness :
  math_ceil (percentage_to_ranged_value SPEED_RANGE
               (SmartThingsFan.percentage (SmartThingsFan.mk (sample_fan_device 2))))
  = 2.
Proof.
  destruct (@fan_percentage_round_trip silent
              (SmartThingsFan.mk (sample_fan_device 2)) 2 eq_refl) as [_ Hrt].
  destruct Hrt as [Hback _]; [lia | exact Hback].
Defined.

Lemma fan_set_percentage_calls_witness :
  (exists rest : list Event,
     log (exec (@SmartThingsFan.async_set_percentage silent (Some 50))
            (SmartThingsFan.mk (sample_fan_device 0)))
     = Await (set_fan_speed 2 true) :: rest) /\
  (1 <= 2 <= 3 <-> 0 < 50 <= 100).
Proof.
  destruct (@fan_set_percentage_calls silent
              (SmartThingsFan.mk (sample_fan_device 0))) as (_ & _ & Hother).
  apply (Hother 50); [discriminate | reflexivity].
Defined.

(** C4, as stated, fails: percentage 101 is neither [None] nor 0, and the
    speed in the call it makes is 4, outside 1..3. *)
Lemma fan_set_percentage_101_leaves_range :
  log (exec (@SmartThingsFan.async_set_percentage silent (Some 101))
         (SmartThingsFan.mk (sample_fan_device 0)))
  = [Await (set_fan_speed 4 true); Plain (async_update_ha_state true)] /\
  ~ (1 <= 4 <= 3).
Proof. split; [reflexivity | lia]. Qed.

Lemma fan_speed_2_percentage_witness :
  SmartThingsFan.percentage (SmartThingsFan.mk (sample_fan_device 2)) = 66 /\
  SmartThingsFan.speed_count (SmartThingsFan.mk (sample_fan_device 2)) = 3.
Proof.
  apply (@fan_speed_2_percentage (SmartThingsFan.mk (sample_fan_device 2))).
  reflexivity.
Defined.

(** C10, as stated, fails: there is a standard fan whose device reports
    speed 2 and whose percentage is not 67. *)
Lemma fan_speed_2_percentage_is_not_67 :
  exists f : SmartThingsFan.t,
    fan_speed (status (SmartThingsFan._device f)) = 2 /\
    SmartThingsFan.percentage f <> 67.
Proof.
  exists (SmartThingsFan.mk (sample_fan_device 2)). split.
  - reflexivity.
  - discriminate.
Qed.

(** ** The hood fan *)

Section HoodFan.
Context `{External}.
Import SmartThingsHoodFan.

(** The calls of one run of [async_set_percentage], from any record: the
    vendor command with the speed the three branches choose, then the state
    write. *)
Lemma hood_set_percentage_run (r : Run t) (p : option Z) :
  let speed :=
    match p with
    | None => _max_speed (self r)
    | Some p =>
        if p =? 0 then 0
        else math_ceil (percentage_to_ranged_value (1, _max_speed (self r)) p)
    end in
  let c := command "hood" "samsungce.hoodFanSpeed" "setHoodFanSpeed"
             [[("speed", VInt speed)]] in
  snd (async_set_percentage p r)
  = mkRun (touch async_write_ha_state (touch c (self r)))
          (log r ++ [Plain c; Plain async_write_ha_state]).
Proof.
  cbv zeta. unfold async_set_percentage, bind, get_self, call. cbn.
  rewrite <- app_assoc. reflexivity.
Qed.

(** C5, on the code. Turning on without a percentage makes the call
    [command("hood", "samsungce.hoodFanSpeed", "setHoodFanSpeed",
    [{"speed": max_speed}])] and turning off makes it with speed 0, but as
    plain statements: no request of the hood fan awaits a call, so no
    speed is sent. *)
Theorem hood_command_not_awaited (s : t) (speed preset_mode : option string) :
  let called := fun value : Z =>
    [Plain (command "hood" "samsungce.hoodFanSpeed" "setHoodFanSpeed"
              [[("speed", VInt value)]]);
     Plain async_write_ha_state] in
  log (exec (async_turn_on speed None preset_mode) s) = called (_max_speed s) /\
  log (exec async_turn_off s) = called 0 /\
  awaited (log (exec (async_turn_on speed None preset_mode) s)) = [] /\
  awaited (log (exec async_turn_off s)) = [] /\
  (forall percentage : option Z,
     awaited (log (exec (async_set_percentage percentage) s)) = []).
Proof.
  cbv zeta. unfold exec, async_turn_on, async_turn_off.
  repeat split; intros; rewrite hood_set_percentage_run; reflexivity.
Qed.

(** C9. No operation writes the two cached speeds: from any record, after
    [async_set_percentage], [async_turn_on] or [async_turn_off] the fields
    [_max_speed] and [_current_speed] are what they were, whatever the
    collaborators did to the device, and so are [percentage] and
    [speed_count]. *)
Theorem hood_cached_speeds_unchanged (r : Run t) :
  let unchanged := fun op : M t unit =>
    let s' := self (snd (op r)) in
    _max_speed s' = _max_speed (self r) /\
    _current_speed s' = _current_speed (self r) /\
    percentage s' = percentage (self r) /\
    speed_count s' = speed_count (self r) in
  (forall p, unchanged (async_set_percentage p)) /\
  (forall speed p preset_mode, unchanged (async_turn_on speed p preset_mode)) /\
  unchanged async_turn_off.
Proof.
  cbv zeta. unfold async_turn_on, async_turn_off.
  repeat split; rewrite hood_set_percentage_run; reflexivity.
Qed.

End HoodFan.

(** What the constructor stores and how it can end. *)
Lemma hood_init_no_component (device : DeviceEntity) :
  components (status device) !! "hood" = None ->
  SmartThingsHoodFan.__init__ device = Ok (SmartThingsHoodFan.mk device None 0 5).
Proof. intros Hc. unfold SmartThingsHoodFan.__init__. rewrite Hc. reflexivity. Qed.

Lemma hood_init_component (device : DeviceEntity) (h : DeviceStatusBase) :
  components (status device) !! "hood" = Some h ->
  SmartThingsHoodFan.__init__ device
  = rbind (match attributes h !! "settableMaxFanSpeed" with
           | Some a => py_int (value a)
           | None => Ok 5
           end) (fun max_speed =>
    rbind (match attributes h !! "hoodFanSpeed" with
           | Some a => py_int (value a)
           | None => Ok 0
           end) (fun current_speed =>
    Ok (SmartThingsHoodFan.mk device (Some h) current_speed max_speed))).
Proof. intros Hc. unfold SmartThingsHoodFan.__init__. rewrite Hc. reflexivity. Qed.

Lemma hood_init_stores_component (device : DeviceEntity) (s : SmartThingsHoodFan.t) :
  SmartThingsHoodFan.__init__ device = Ok s ->
  SmartThingsHoodFan._hood s = components (status device) !! "hood".
Proof.
  unfold SmartThingsHoodFan.__init__.
  destruct (components (status device) !! "hood") as [h |].
  - destruct (attributes h !! "settableMaxFanSpeed") as [a |];
      [destruct (py_int (value a)) | ]; cbn; try discriminate;
      (destruct (attributes h !! "hoodFanSpeed") as [b |];
       [destruct (py_int (value b)) | ]; cbn; try discriminate;
       intros [= <-]; reflexivity).
  - intros [= <-]. reflexivity.
Qed.

(** C6. [percentage] converts the cached current speed over the fixed range
    1..3 and [speed_count] is the cached maximum.  A hood whose component
    reports [settableMaxFanSpeed] "10" and [hoodFanSpeed] "3" is constructed
    with 10 speeds and a percentage of [ranged_value_to_percentage (1,3) 3],
    which is 100 and not the 30 that the range 1..10 would give. *)
Theorem hood_percentage_fixed_range (device : DeviceEntity)
    (h : DeviceStatusBase) (a_max a_cur : Attribute) :
  components (status device) !! "hood" = Some h ->
  attributes h !! "settableMaxFanSpeed" = Some a_max ->
  value a_max = VStr "10" ->
  attributes h !! "hoodFanSpeed" = Some a_cur ->
  value a_cur = VStr "3" ->
  (forall s : SmartThingsHoodFan.t,
     SmartThingsHoodFan.percentage s
     = ranged_value_to_percentage (1, 3) (SmartThingsHoodFan._current_speed s) /\
     SmartThingsHoodFan.speed_count s = SmartThingsHoodFan._max_speed s) /\
  exists s : SmartThingsHoodFan.t,
    SmartThingsHoodFan.__init__ device = Ok s /\
    SmartThingsHoodFan.speed_count s = 10 /\
    SmartThingsHoodFan.percentage s = ranged_value_to_percentage (1, 3) 3 /\
    SmartThingsHoodFan.percentage s = 100 /\
    ranged_value_to_percentage (1, SmartThingsHoodFan._max_speed s) 3 = 30.
Proof.
  intros Hc Hmax Vmax Hcur Vcur. split.
  - intros s. split; reflexivity.
  - eexists. split.
    + rewrite (hood_init_component device h Hc), Hmax, Hcur, Vmax, Vcur.
      reflexivity.
    + repeat split.
Qed.

Lemma hood_percentage_fixed_range_witness :
  exists s : SmartThingsHoodFan.t,
    SmartThingsHoodFan.__init__
      (sample_hood_device
         [("settableMaxFanSpeed", VStr "10"); ("hoodFanSpeed", VStr "3")])
    = Ok s /\
    SmartThingsHoodFan.speed_count s = 10 /\
    SmartThingsHoodFan.percentage s = 100.
Proof.
  destruct (hood_percentage_fixed_range
              (sample_hood_device
                 [("settableMaxFanSpeed", VStr "10"); ("hoodFanSpeed", VStr "3")])
              (sample_hood_component
                 [("settableMaxFanSpeed", VStr "10"); ("hoodFanSpeed", VStr "3")])
              (mkAttribute (VStr "10")) (mkAttribute (VStr "3"))
              eq_refl eq_refl eq_refl eq_refl eq_refl)
    as [_ [s (Hinit & Hcount & _ & Hpct & _)]].
  exists s. repeat split; assumption.
Defined.

(** C7. A missing component or a missing attribute never makes the
    constructor raise.  Without the "hood" component it returns with the
    defaults 5 and 0.  With the component, each speed is the default when
    its attribute is missing and the converted value when it is there, and
    the constructor returns whenever every attribute that is there holds a
    value [int] accepts; when it raises, the exception is the one [int]
    raised on an attribute that is there.  A [settableMaxFanSpeed] of "7"
    gives [max_speed] 7 in every entity constructed. *)
Theorem hood_init_defaults (device : DeviceEntity) :
  (components (status device) !! "hood" = None ->
   exists s, SmartThingsHoodFan.__init__ device = Ok s /\
             SmartThingsHoodFan._max_speed s = 5 /\
             SmartThingsHoodFan._current_speed s = 0) /\
  (forall (h : DeviceStatusBase) (maximum current : Z),
     components (status device) !! "hood" = Some h ->
     (attributes h !! "settableMaxFanSpeed" = None /\ maximum = 5 \/
      exists a : Attribute,
        attributes h !! "settableMaxFanSpeed" = Some a /\
        py_int (value a) = Ok maximum) ->
     (attributes h !! "hoodFanSpeed" = None /\ current = 0 \/
      exists a : Attribute,
        attributes h !! "hoodFanSpeed" = Some a /\
        py_int (value a) = Ok current) ->
     exists s, SmartThingsHoodFan.__init__ device = Ok s /\
               SmartThingsHoodFan._max_speed s = maximum /\
               SmartThingsHoodFan._current_speed s = current) /\
  (forall (h : DeviceStatusBase) (exc : PyExc),
     components (status device) !! "hood" = Some h ->
     SmartThingsHoodFan.__init__ device = Raise exc ->
     exists (name : string) (a : Attribute),
       (name = "settableMaxFanSpeed" \/ name = "hoodFanSpeed") /\
       attributes h !! name = Some a /\
       py_int (value a) = Raise exc) /\
  (forall (h : DeviceStatusBase) (a : Attribute),
     components (status device) !! "hood" = Some h ->
     attributes h !! "settableMaxFanSpeed" = Some a ->
     value a = VStr "7" ->
     (forall s, SmartThingsHoodFan.__init__ device = Ok s ->
                SmartThingsHoodFan._max_speed s = 7) /\
     (forall current : Z,
        (attributes h !! "hoodFanSpeed" = None /\ current = 0 \/
         exists b : Attribute,
           attributes h !! "hoodFanSpeed" = Some b /\
           py_int (value b) = Ok current) ->
        exists s, SmartThingsHoodFan.__init__ device = Ok s /\
                  SmartThingsHoodFan._max_speed s = 7 /\
                  SmartThingsHoodFan._current_speed s = current)).
Proof.
  split; [| split; [| split]].
  - intros Hc. rewrite (hood_init_no_component device Hc).
    eexists. repeat split.
  - intros h maximum current Hc Hmax Hcur.
    rewrite (hood_init_component device h Hc).
    destruct Hmax as [[-> ->] | [a [-> ->]]];
      destruct Hcur as [[-> ->] | [b [-> ->]]];
      eexists; repeat split.
  - intros h exc Hc. rewrite (hood_init_component device h Hc).
    destruct (attributes h !! "settableMaxFanSpeed") as [a |] eqn:Hmax.
    + destruct (py_int (value a)) as [m | e] eqn:Hint; cbn.
      * destruct (attributes h !! "hoodFanSpeed") as [b |] eqn:Hcur;
          [| discriminate].
        destruct (py_int (value b)) as [c | e] eqn:Hint'; cbn;
          [discriminate |].
        intros [= <-]. exists "hoodFanSpeed", b. auto.
      * intros [= <-]. exists "settableMaxFanSpeed", a. auto.
    + cbn. destruct (attributes h !! "hoodFanSpeed") as [b |] eqn:Hcur;
        [| discriminate].
      destruct (py_int (value b)) as [c | e] eqn:Hint'; cbn; [discriminate |].
      intros [= <-]. exists "hoodFanSpeed", b. auto.
  - intros h a Hc Ha Hseven. rewrite (hood_init_component device h Hc).
    rewrite Ha, Hseven. cbn. split.
    + intros s.
      destruct (attributes h !! "hoodFanSpeed") as [b |];
        [destruct (py_int (value b)) |]; cbn; try discriminate;
        intros [= <-]; reflexivity.
    + intros current [[-> ->] | [b [-> ->]]]; eexists; repeat split.
Qed.

Lemma hood_init_defaults_witness :
  (exists s, SmartThingsHoodFan.__init__ sample_bare_device = Ok s /\
             SmartThingsHoodFan._max_speed s = 5 /\
             SmartThingsHoodFan._current_speed s = 0) /\
  (exists s, SmartThingsHoodFan.__init__
               (sample_hood_device
                  [("settableMaxFanSpeed", VStr "7"); ("hoodFanSpeed", VStr "2")])
             = Ok s /\
             SmartThingsHoodFan._max_speed s = 7 /\
             SmartThingsHoodFan._current_speed s = 2) /\
  (exists s, SmartThingsHoodFan.__init__
               (sample_hood_device [("hoodFanSpeed", VStr "2")]) = Ok s /\
             SmartThingsHoodFan._max_speed s = 5 /\
             SmartThingsHoodFan._current_speed s = 2).
Proof.
  split; [| split].
  - destruct (hood_init_defaults sample_bare_device) as [Hnone _].
    apply Hnone. reflexivity.
  - destruct (hood_init_defaults
                (sample_hood_device
                   [("settableMaxFanSpeed", VStr "7"); ("hoodFanSpeed", VStr "2")]))
      as (_ & _ & _ & Hseven).
    destruct (Hseven
                (sample_hood_component
                   [("settableMaxFanSpeed", VStr "7"); ("hoodFanSpeed", VStr "2")])
                (mkAttribute (VStr "7")) eq_refl eq_refl eq_refl)
      as [_ Hbuilt].
    apply Hbuilt. right. exists (mkAttribute (VStr "2")). split; reflexivity.
  - destruct (hood_init_defaults
                (sample_hood_device [("hoodFanSpeed", VStr "2")]))
      as (_ & Hsome & _).
    apply (Hsome (sample_hood_component [("hoodFanSpeed", VStr "2")]) 5 2
             eq_refl).
    + left. split; reflexivity.
    + right. exists (mkAttribute (VStr "2")). split; reflexivity.
Defined.

(** An attribute that is there is converted, so a value [int] refuses makes
    the constructor raise: here a [hoodFanSpeed] whose value is [None]. *)
Example hood_init_null_value :
  SmartThingsHoodFan.__init__ (sample_hood_device [("hoodFanSpeed", VNone)])
  = Raise TypeError.
Proof. reflexivity. Qed.

(** C8. [is_on] is true exactly when the "hood" component is there and reads
    [hoodFanSpeed] as on; without the component the body falls off its end,
    so the value is [None], which counts as false.  The component is the
    one the constructor found in the device status. *)
Theorem hood_is_on_iff (s : SmartThingsHoodFan.t) :
  (truthy (SmartThingsHoodFan.is_on s) = true <->
   exists h : DeviceStatusBase,
     SmartThingsHoodFan._hood s = Some h /\
     pysmartthings.is_on h "hoodFanSpeed" = true) /\
  (SmartThingsHoodFan._hood s = None ->
   SmartThingsHoodFan.is_on s = VNone /\
   truthy (SmartThingsHoodFan.is_on s) = false) /\
  (forall device : DeviceEntity,
     SmartThingsHoodFan.__init__ device = Ok s ->
     SmartThingsHoodFan._hood s = components (status device) !! "hood").
Proof.
  unfold SmartThingsHoodFan.is_on. split; [split | split].
  - destruct (SmartThingsHoodFan._hood s) as [h |]; cbn.
    + intros Hon. exists h. split; [reflexivity | exact Hon].
    + discriminate.
  - intros [h [-> Hon]]. exact Hon.
  - intros ->. split; reflexivity.
  - intros device Hinit. apply hood_init_stores_component. exact Hinit.
Qed.

Lemma hood_is_on_iff_witness :
  SmartThingsHoodFan.is_on (SmartThingsHoodFan.mk sample_bare_device None 0 5)
  = VNone /\
  truthy (SmartThingsHoodFan.is_on
            (SmartThingsHoodFan.mk sample_bare_device None 0 5)) = false.
Proof.
  destruct (hood_is_on_iff (SmartThingsHoodFan.mk sample_bare_device None 0 5))
    as (_ & Hnone & _).
  apply Hnone. reflexivity.
Defined.

(** ** Capability detection and setup *)

Lemma py_in_In (x : string) (xs : list string) :
  py_in x xs = true <-> In x xs.
Proof.
  unfold py_in. rewrite existsb_exists. split.
  - intros [y [Hy Heq]]. apply String.eqb_eq in Heq. subst y. exact Hy.
  - intros Hx. exists x. split; [exact Hx | apply String.eqb_refl].
Qed.

Lemma py_in_not_In (x : string) (xs : list string) :
  py_in x xs = false <-> ~ In x xs.
Proof.
  rewrite <- py_in_In. destruct (py_in x xs); split; intros Hx;
    try reflexivity; try discriminate; try (intros Hy; discriminate).
  exfalso. apply Hx. reflexivity.
Qed.

(** C2. With the hood capability among the identifiers the result is the
    list of that one identifier, whatever else is there; without it the
    result is the pair switch, fan speed exactly when both are there, and
    [None] in every other case. *)
Theorem get_capabilities_cases (capabilities : list string) :
  (In HOOD_FAN_CAPABILITY capabilities ->
   get_capabilities capabilities = Some [HOOD_FAN_CAPABILITY]) /\
  (~ In HOOD_FAN_CAPABILITY capabilities ->
   (get_capabilities capabilities
    = Some [Capability.switch; Capability.fan_speed]
    <-> In Capability.switch capabilities /\
        In Capability.fan_speed capabilities) /\
   (~ (In Capability.switch capabilities /\
       In Capability.fan_speed capabilities) ->
    get_capabilities capabilities = None)).
Proof.
  unfold get_capabilities, STANDARD_FAN_CAPABILITIES. cbn [forallb].
  split.
  - intros Hhood. apply py_in_In in Hhood. rewrite Hhood. reflexivity.
  - intros Hhood. apply py_in_not_In in Hhood. rewrite Hhood.
    destruct (py_in Capability.switch capabilities) eqn:Hsw;
      destruct (py_in Capability.fan_speed capabilities) eqn:Hfs; cbn.
    + apply py_in_In in Hsw, Hfs. split.
      * split; [intros _; split; assumption | reflexivity].
      * intros Hno. exfalso. apply Hno. split; assumption.
    + apply py_in_not_In in Hfs. split.
      * split; [discriminate | intros [_ Hin]; contradiction].
      * reflexivity.
    + apply py_in_not_In in Hsw. split.
      * split; [discriminate | intros [Hin _]; contradiction].
      * reflexivity.
    + apply py_in_not_In in Hsw. split.
      * split; [discriminate | intros [Hin _]; contradiction].
      * reflexivity.
Qed.

Lemma get_capabilities_cases_witness :
  get_capabilities
    [Capability.switch; HOOD_FAN_CAPABILITY; Capability.fan_speed]
  = Some [HOOD_FAN_CAPABILITY] /\
  get_capabilities [Capability.switch] = None.
Proof.
  split.
  - destruct (get_capabilities_cases
                [Capability.switch; HOOD_FAN_CAPABILITY; Capability.fan_speed])
      as [Hhood _].
    apply Hhood. cbn. tauto.
  - destruct (get_capabilities_cases [Capability.switch]) as [_ Hrest].
    assert (Hno : ~ In HOOD_FAN_CAPABILITY [Capability.switch]).
    { cbn. intros [Heq | []]. discriminate Heq. }
    destruct (Hrest Hno) as [_ Hnone].
    apply Hnone. cbn. intros [_ [Heq | []]]. discriminate Heq.
Defined.

(** C3. Setup hands the platform one [SmartThingsFan] for each device of
    the broker that is assigned the fan platform, in the broker's order, and
    nothing else: no entity of the list is a [SmartThingsHoodFan], also when
    a device advertises the hood capability. *)
Theorem setup_adds_standard_fans_only
    (brokers : gmap string DeviceBroker) (entry_id : string)
    (broker : DeviceBroker) :
  brokers !! entry_id = Some broker ->
  exists entities : list FanEntity,
    async_setup_entry brokers entry_id = Ok entities /\
    (forall device : DeviceEntity,
       In device (List.map snd (devices broker)) ->
       any_assigned broker (device_id device) "fan" = true ->
       In (Fan (SmartThingsFan.mk device)) entities) /\
    (forall entity : FanEntity,
       In entity entities ->
       exists device : DeviceEntity,
         entity = Fan (SmartThingsFan.mk device) /\
         In device (List.map snd (devices broker)) /\
         any_assigned broker (device_id device) "fan" = true) /\
    (forall h : SmartThingsHoodFan.t, ~ In (HoodFan h) entities) /\
    length entities
    = length (List.filter
                (fun device => any_assigned broker (device_id device) "fan")
                (List.map snd (devices broker))).
Proof.
  intros Hbroker. unfold async_setup_entry. rewrite Hbroker.
  eexists. split; [reflexivity |]. repeat split.
  - intros device Hdev Hassigned. apply in_map_iff. exists device.
    split; [reflexivity | apply filter_In; split; assumption].
  - intros entity Hentity. apply in_map_iff in Hentity.
    destruct Hentity as [device [<- Hdev]]. apply filter_In in Hdev.
    destruct Hdev as [Hdev Hassigned]. exists device. repeat split; assumption.
  - intros h Hin. apply in_map_iff in Hin.
    destruct Hin as [device [Heq _]]. discriminate Heq.
  - apply length_map.
Qed.

Lemma setup_adds_standard_fans_only_witness :
  exists entities : list FanEntity,
    async_setup_entry sample_brokers "entry" = Ok entities /\
    In (Fan (SmartThingsFan.mk sample_bare_device)) entities /\
    length entities = 2%nat.
Proof.
  destruct (setup_adds_standard_fans_only sample_brokers "entry" sample_broker
              eq_refl)
    as [entities (Hsetup & Hall & _ & _ & Hlen)].
  exists entities. split; [exact Hsetup |]. split.
  - apply Hall; [cbn; tauto | reflexivity].
  - exact Hlen.
Defined.

(** * Further properties *)

(** ** More on the standard fan *)

Section StandardFanExtra.
Context `{External}.
Import SmartThingsFan.

(** X1. A percentage in 1..33 sets speed 1, one in 34..66 sets speed 2 and
    one in 67..100 sets speed 3. *)
Theorem fan_set_percentage_thresholds (f : t) (p : Z) :
  0 < p <= 100 ->
  log (exec (async_set_percentage (Some p)) f)
  = [Await (set_fan_speed (if p <=? 33 then 1 else if p <=? 66 then 2 else 3)
              true);
     Plain (async_update_ha_state true)].
Proof.
  intros Hp. rewrite fan_set_percentage_log by lia. do 3 f_equal.
  unfold SPEED_RANGE. apply math_ceil_ranged_value_eq.
  destruct (Z.leb_spec p 33); [lia |]. destruct (Z.leb_spec p 66); lia.
Qed.


(** X3. The percentage is 0 exactly when the reported speed is 0, and a
    higher speed shows a strictly higher percentage. *)
Theorem fan_percentage_zero_and_increasing (f g : t) :
  (percentage f = 0 <-> fan_speed (status (_device f)) = 0) /\
  (fan_speed (status (_device f)) < fan_speed (status (_device g)) ->
   percentage f < percentage g).
Proof.
  unfold percentage, SPEED_RANGE. rewrite !ranged_value_to_percentage_from_1.
  generalize (fan_speed (status (_device f))) (fan_speed (status (_device g))).
  intros a b.
  pose proof (Z.div_mod (a * 100) 3 ltac:(lia)).
  pose proof (Z.mod_pos_bound (a * 100) 3 ltac:(lia)).
  pose proof (Z.div_mod (b * 100) 3 ltac:(lia)).
  pose proof (Z.mod_pos_bound (b * 100) 3 ltac:(lia)).
  lia.
Qed.

(** X4. [async_turn_off] and [async_set_percentage(0)] send the same
    command to the device and differ in the call that follows: the first
    writes the state, the second asks for an update with a refresh.  When
    those two calls leave the device alone, both leave the entity in the
    same state. *)
Theorem fan_turn_off_versus_set_zero (f : t) :
  (forall device, on_device async_write_ha_state device = device) ->
  (forall refresh device,
     on_device (async_update_ha_state refresh) device = device) ->
  log (exec async_turn_off f)
  = [Await (switch_off true); Plain async_write_ha_state] /\
  log (exec (async_set_percentage (Some 0)) f)
  = [Await (switch_off true); Plain (async_update_ha_state true)] /\
  self (exec async_turn_off f) = self (exec (async_set_percentage (Some 0)) f).
Proof.
  intros Hwrite Hupd. repeat split.
  unfold exec, async_turn_off, async_set_percentage, bind, call, touch. cbn.
  rewrite Hwrite, Hupd. reflexivity.
Qed.

(** X5. With a library that sets the switch at once on [set_status=True]
    and whose status is left alone by the state calls, [is_on] is false after
    [async_turn_off] and after turning on with percentage 0, and true after
    turning on without a percentage. *)
Theorem fan_is_on_after_switching (f : t) (speed preset_mode : option string) :
  (forall device, switch (status (on_device (switch_on true) device)) = true) ->
  (forall device, switch (status (on_device (switch_off true) device)) = false) ->
  (forall device, on_device async_write_ha_state device = device) ->
  (forall refresh device,
     on_device (async_update_ha_state refresh) device = device) ->
  is_on (self (exec async_turn_off f)) = false /\
  is_on (self (exec (async_turn_on speed (Some 0) preset_mode) f)) = false /\
  is_on (self (exec (async_turn_on speed None preset_mode) f)) = true.
Proof.
  intros Hon Hoff Hwrite Hupd.
  unfold exec, async_turn_off, async_turn_on, async_set_percentage, bind,
    call, touch, is_on. cbn.
  rewrite Hwrite, !Hupd, !Hoff, Hon. repeat split.
Qed.

(** X6. With a library that sets the speed at once on [set_status=True]
    and whose status is left alone by the update call, the fan shows, after
    [async_set_percentage(p)] with [p] in 1..100, the least of 33, 66 and 100
    that is not below [p] (100 for the top third). *)
Theorem fan_percentage_after_set (f : t) (p : Z) :
  (forall speed device,
     fan_speed (status (on_device (set_fan_speed speed true) device)) = speed) ->
  (forall refresh device,
     on_device (async_update_ha_state refresh) device = device) ->
  0 < p <= 100 ->
  percentage (self (exec (async_set_percentage (Some p)) f))
  = (if p <=? 33 then 33 else if p <=? 66 then 66 else 100).
Proof.
  intros Hset Hupd Hp.
  unfold exec, async_set_percentage, bind, call, touch, percentage. cbn.
  destruct (Z.eqb_spec p 0) as [E | _]; [lia |]. cbn.
  rewrite Hupd, Hset.
  assert (Hk : math_ceil (percentage_to_ranged_value SPEED_RANGE p)
               = if p <=? 33 then 1 else if p <=? 66 then 2 else 3).
  { unfold SPEED_RANGE. apply math_ceil_ranged_value_eq.
    destruct (Z.leb_spec p 33); [lia |]. destruct (Z.leb_spec p 66); lia. }
  rewrite Hk.
  destruct (p <=? 33); [reflexivity |]. destruct (p <=? 66); reflexivity.
Qed.

End StandardFanExtra.

Lemma fan_set_percentage_thresholds_witness :
  log (exec (@SmartThingsFan.async_set_percentage silent (Some 34))
         (SmartThingsFan.mk (sample_fan_device 0)))
  = [Await (set_fan_speed 2 true); Plain (async_update_ha_state true)].
Proof.
  apply (@fan_set_percentage_thresholds silent
           (SmartThingsFan.mk (sample_fan_device 0)) 34).
  lia.
Defined.

Lemma fan_percentage_after_set_witness :
  SmartThingsFan.percentage
    (self (exec (@SmartThingsFan.async_set_percentage optimistic (Some 34))
             (SmartThingsFan.mk (sample_fan_device 0))))
  = 66.
Proof.
  apply (@fan_percentage_after_set optimistic
           (SmartThingsFan.mk (sample_fan_device 0)) 34).
  - intros speed device. reflexivity.
  - intros refresh device. reflexivity.
  - lia.
Defined.


Lemma fan_turn_off_versus_set_zero_witness :
  self (exec (@SmartThingsFan.async_turn_off optimistic)
          (SmartThingsFan.mk (sample_fan_device 2)))
  = self (exec (@SmartThingsFan.async_set_percentage optimistic (Some 0))
            (SmartThingsFan.mk (sample_fan_device 2))).
Proof.
  destruct (@fan_turn_off_versus_set_zero optimistic
              (SmartThingsFan.mk (sample_fan_device 2)))
    as (_ & _ & Hsame).
  - intros device. reflexivity.
  - intros refresh device. reflexivity.
  - exact Hsame.
Defined.

Lemma fan_is_on_after_switching_witness :
  SmartThingsFan.is_on
    (self (exec (@SmartThingsFan.async_turn_off optimistic)
             (SmartThingsFan.mk (sample_fan_device 2))))
  = false.
Proof.
  destruct (@fan_is_on_after_switching optimistic
              (SmartThingsFan.mk (sample_fan_device 2)) None None)
    as (Hoff & _ & _).
  - intros device. reflexivity.
  - intros device. reflexivity.
  - intros device. reflexivity.
  - intros refresh device. reflexivity.
  - exact Hoff.
Defined.

(** ** More on the hood fan *)

Section HoodFanExtra.
Context `{External}.
Import SmartThingsHoodFan.

(** X7. With a cached maximum of at least 1 whose product with the
    percentage stays below 2^53, the call a percentage in 1..100 makes
    carries a speed in 1..max_speed. *)
Theorem hood_speed_in_range (s : t) (p : Z) :
  1 <= _max_speed s -> 0 < p <= 100 ->
  double_exact (_max_speed s * p) = true ->
  exists speed : Z,
    log (exec (async_set_percentage (Some p)) s)
    = [Plain (command "hood" "samsungce.hoodFanSpeed" "setHoodFanSpeed"
                [[("speed", VInt speed)]]);
       Plain async_write_ha_state] /\
    1 <= speed <= _max_speed s.
Proof.
  intros Hmax Hp _. eexists. split.
  - unfold exec. rewrite hood_set_percentage_run. cbn.
    destruct (Z.eqb_spec p 0) as [E | _]; [lia | reflexivity].
  - apply math_ceil_ranged_value_bounds; lia.
Qed.


(** X9. Percentage 100 and no percentage at all make the same request:
    with a cached maximum whose hundredfold stays below 2^53, both make the
    same calls, with the cached maximum as the speed, and leave the same
    record behind. *)
Theorem hood_full_percentage_is_default (r : Run t) :
  double_exact (_max_speed (self r) * 100) = true ->
  snd (async_set_percentage (Some 100) r) = snd (async_set_percentage None r).
Proof.
  intros _. rewrite !hood_set_percentage_run. cbn.
  assert (Hfull : math_ceil (percentage_to_ranged_value
                               (1, _max_speed (self r)) 100)
                  = _max_speed (self r)).
  { apply math_ceil_ranged_value_eq. lia. }
  rewrite Hfull. reflexivity.
Qed.


(** X11. With a cached maximum of 0 the call of every request carries
    speed 0, whatever the percentage. *)
Theorem hood_zero_maximum_speed_zero (s : t) (percentage : option Z) :
  _max_speed s = 0 ->
  log (exec (async_set_percentage percentage) s)
  = [Plain (command "hood" "samsungce.hoodFanSpeed" "setHoodFanSpeed"
              [[("speed", VInt 0)]]);
     Plain async_write_ha_state].
Proof.
  intros Hmax. unfold exec. rewrite hood_set_percentage_run. cbn. rewrite Hmax.
  destruct percentage as [p |]; [| reflexivity].
  destruct (p =? 0); [reflexivity |].
  assert (Hzero : math_ceil (percentage_to_ranged_value (1, 0) p) = 0).
  { apply math_ceil_ranged_value_eq. lia. }
  rewrite Hzero. reflexivity.
Qed.

End HoodFanExtra.

(** X12. The percentage of the hood lies in 0..100 exactly when the cached
    current speed lies in 0..3: a cached speed above 3 shows more than 100
    percent. *)
Theorem hood_percentage_in_range_iff (s : SmartThingsHoodFan.t) :
  0 <= SmartThingsHoodFan.percentage s <= 100
  <-> 0 <= SmartThingsHoodFan._current_speed s <= 3.
Proof.
  unfold SmartThingsHoodFan.percentage, SPEED_RANGE.
  rewrite ranged_value_to_percentage_from_1.
  generalize (SmartThingsHoodFan._current_speed s). intros a.
  pose proof (Z.div_mod (a * 100) 3 ltac:(lia)).
  pose proof (Z.mod_pos_bound (a * 100) 3 ltac:(lia)).
  lia.
Qed.


Lemma hood_speed_in_range_witness :
  exists speed : Z,
    log (exec (@SmartThingsHoodFan.async_set_percentage silent (Some 50))
           (SmartThingsHoodFan.mk sample_bare_device None 0 5))
    = [Plain (command "hood" "samsungce.hoodFanSpeed" "setHoodFanSpeed"
                [[("speed", VInt speed)]]);
       Plain async_write_ha_state] /\
    1 <= speed <= 5.
Proof.
  apply (@hood_speed_in_range silent
           (SmartThingsHoodFan.mk sample_bare_device None 0 5) 50);
    cbn; [lia | lia | reflexivity].
Defined.

Lemma hood_full_percentage_is_default_witness :
  snd (@SmartThingsHoodFan.async_set_percentage silent (Some 100)
         (mkRun (SmartThingsHoodFan.mk sample_bare_device None 0 5) []))
  = snd (@SmartThingsHoodFan.async_set_percentage silent None
           (mkRun (SmartThingsHoodFan.mk sample_bare_device None 0 5) [])).
Proof.
  apply (@hood_full_percentage_is_default silent
           (mkRun (SmartThingsHoodFan.mk sample_bare_device None 0 5) [])).
  reflexivity.
Defined.



Lemma hood_zero_maximum_speed_zero_witness :
  log (exec (@SmartThingsHoodFan.async_set_percentage silent (Some 100))
         (SmartThingsHoodFan.mk sample_bare_device None 0 0))
  = [Plain (command "hood" "samsungce.hoodFanSpeed" "setHoodFanSpeed"
              [[("speed", VInt 0)]]);
     Plain async_write_ha_state].
Proof.
  apply (@hood_zero_maximum_speed_zero silent
           (SmartThingsHoodFan.mk sample_bare_device None 0 0) (Some 100)).
  reflexivity.
Defined.

(** ** More on capability detection, setup and construction *)

(** X14. Whatever [get_capabilities] returns was among the identifiers it
    was given. *)
Theorem get_capabilities_subset (capabilities supported : list string) :
  get_capabilities capabilities = Some supported ->
  forall capability : string,
    In capability supported -> In capability capabilities.
Proof.
  unfold get_capabilities, STANDARD_FAN_CAPABILITIES. cbn [forallb].
  destruct (py_in HOOD_FAN_CAPABILITY capabilities) eqn:Hhood.
  - intros [= <-] capability [<- | []]. apply py_in_In. exact Hhood.
  - destruct (py_in Capability.switch capabilities) eqn:Hsw;
      destruct (py_in Capability.fan_speed capabilities) eqn:Hfs; cbn;
      try discriminate.
    intros [= <-] capability [<- | [<- | []]]; apply py_in_In; assumption.
Qed.

(** X15. The result depends only on which identifiers are there, not on
    their order or on repetitions. *)
Theorem get_capabilities_membership (capabilities capabilities' : list string) :
  (forall capability : string,
     In capability capabilities <-> In capability capabilities') ->
  get_capabilities capabilities = get_capabilities capabilities'.
Proof.
  intros Hsame.
  assert (Hin : forall x, py_in x capabilities = py_in x capabilities').
  { intros x. destruct (py_in x capabilities') eqn:Hx.
    - apply py_in_In. apply Hsame. apply py_in_In. exact Hx.
    - apply py_in_not_In. intros Hx'. apply Hsame in Hx'.
      apply py_in_In in Hx'. congruence. }
  unfold get_capabilities, STANDARD_FAN_CAPABILITIES. cbn [forallb].
  rewrite !Hin. reflexivity.
Qed.

(** X16. Detection is idempotent: a returned list is returned unchanged when
    it is given back. *)
Theorem get_capabilities_idempotent (capabilities supported : list string) :
  get_capabilities capabilities = Some supported ->
  get_capabilities supported = Some supported.
Proof.
  unfold get_capabilities at 1. unfold STANDARD_FAN_CAPABILITIES.
  destruct (py_in HOOD_FAN_CAPABILITY capabilities).
  - intros [= <-]. reflexivity.
  - destruct (forallb _ _); [| discriminate]. intros [= <-]. reflexivity.
Qed.

(** X18. Setup adds no entity exactly when no device of the broker is
    assigned the fan platform, and never more entities than devices. *)
Theorem setup_empty_iff (brokers : gmap string DeviceBroker) (entry_id : string)
    (broker : DeviceBroker) (entities : list FanEntity) :
  brokers !! entry_id = Some broker ->
  async_setup_entry brokers entry_id = Ok entities ->
  (entities = []
   <-> forall device : DeviceEntity,
         In device (List.map snd (devices broker)) ->
         any_assigned broker (device_id device) "fan" = false) /\
  (length entities <= length (devices broker))%nat.
Proof.
  intros Hbroker. unfold async_setup_entry. rewrite Hbroker. intros [= <-].
  generalize (List.map snd (devices broker)) (length_map snd (devices broker)).
  intros values Hlen. rewrite <- Hlen. clear Hlen. split.
  - induction values as [| device values IH]; cbn.
    + split; [intros _ device [] | reflexivity].
    + destruct (any_assigned broker (device_id device) "fan") eqn:Hassigned; cbn.
      * split; [discriminate |].
        intros Hnone. specialize (Hnone device (or_introl eq_refl)). congruence.
      * rewrite IH. split.
        -- intros Hnone d [<- | Hd]; [exact Hassigned | apply Hnone; exact Hd].
        -- intros Hnone d Hd. apply Hnone. right. exact Hd.
  - rewrite length_map. apply List.filter_length_le.
Qed.

(** X19. The entities are built from a subsequence of the broker's devices:
    setup keeps the broker's order and adds no device twice that the broker
    lists once. *)
Theorem setup_keeps_order (brokers : gmap string DeviceBroker) (entry_id : string)
    (broker : DeviceBroker) (entities : list FanEntity) :
  brokers !! entry_id = Some broker ->
  async_setup_entry brokers entry_id = Ok entities ->
  exists chosen : list DeviceEntity,
    sublist chosen (List.map snd (devices broker)) /\
    entities = List.map (fun device => Fan (SmartThingsFan.mk device)) chosen.
Proof.
  intros Hbroker. unfold async_setup_entry. rewrite Hbroker. intros [= <-].
  eexists. split; [| reflexivity].
  induction (List.map snd (devices broker)) as [| device values IH]; cbn.
  - constructor.
  - destruct (any_assigned broker (device_id device) "fan");
      [apply sublist_skip | apply sublist_cons]; exact IH.
Qed.

(** X20. The constructor raises exactly when the "hood" component is there
    and one of the two attributes is there with a value [int] refuses. *)
Theorem hood_init_raises_iff (device : DeviceEntity) :
  (exists exc, SmartThingsHoodFan.__init__ device = Raise exc)
  <-> exists h : DeviceStatusBase,
        components (status device) !! "hood" = Some h /\
        exists (name : string) (a : Attribute) (exc : PyExc),
          (name = "settableMaxFanSpeed" \/ name = "hoodFanSpeed") /\
          attributes h !! name = Some a /\
          py_int (value a) = Raise exc.
Proof.
  destruct (components (status device) !! "hood") as [h |] eqn:Hc.
  - rewrite (hood_init_component device h Hc). split.
    + intros [exc Hexc]. exists h. split; [reflexivity |].
      destruct (attributes h !! "settableMaxFanSpeed") as [a |] eqn:Hmax.
      * destruct (py_int (value a)) as [m | e] eqn:Hint.
        -- cbn in Hexc.
           destruct (attributes h !! "hoodFanSpeed") as [b |] eqn:Hcur;
             [| discriminate Hexc].
           destruct (py_int (value b)) as [c | e] eqn:Hint';
             [discriminate Hexc |].
           exists "hoodFanSpeed", b, e. auto.
        -- exists "settableMaxFanSpeed", a, e. auto.
      * cbn in Hexc.
        destruct (attributes h !! "hoodFanSpeed") as [b |] eqn:Hcur;
          [| discriminate Hexc].
        destruct (py_int (value b)) as [c | e] eqn:Hint';
          [discriminate Hexc |].
        exists "hoodFanSpeed", b, e. auto.
    + intros [h' [[= <-] (name & a & exc & [-> | ->] & Ha & Hint)]].
      * rewrite Ha, Hint. exists exc. reflexivity.
      * rewrite Ha, Hint.
        destruct (attributes h !! "settableMaxFanSpeed") as [b |];
          [destruct (py_int (value b)) as [m | e] |]; cbn; eauto.
  - rewrite (hood_init_no_component device Hc). split.
    + intros [exc Hexc]. discriminate Hexc.
    + intros [h [Hh _]]. discriminate Hh.
Qed.

(** X21. The maximum is converted first: when [settableMaxFanSpeed] holds a
    value [int] refuses, the constructor raises that exception whatever
    [hoodFanSpeed] holds. *)
Theorem hood_init_maximum_first (device : DeviceEntity) (h : DeviceStatusBase)
    (a : Attribute) (exc : PyExc) :
  components (status device) !! "hood" = Some h ->
  attributes h !! "settableMaxFanSpeed" = Some a ->
  py_int (value a) = Raise exc ->
  SmartThingsHoodFan.__init__ device = Raise exc.
Proof.
  intros Hc Ha Hint. rewrite (hood_init_component device h Hc), Ha, Hint.
  reflexivity.
Qed.

Lemma get_capabilities_subset_witness :
  In HOOD_FAN_CAPABILITY
     [Capability.switch; HOOD_FAN_CAPABILITY; Capability.fan_speed].
Proof.
  apply (get_capabilities_subset
           [Capability.switch; HOOD_FAN_CAPABILITY; Capability.fan_speed]
           [HOOD_FAN_CAPABILITY] eq_refl).
  cbn. tauto.
Defined.

Lemma get_capabilities_membership_witness :
  get_capabilities [Capability.fan_speed; Capability.switch; Capability.switch]
  = get_capabilities [Capability.switch; Capability.fan_speed].
Proof.
  apply (get_capabilities_membership
           [Capability.fan_speed; Capability.switch; Capability.switch]
           [Capability.switch; Capability.fan_speed]).
  intros capability. cbn. tauto.
Defined.

Lemma get_capabilities_idempotent_witness :
  get_capabilities STANDARD_FAN_CAPABILITIES = Some STANDARD_FAN_CAPABILITIES.
Proof.
  apply (get_capabilities_idempotent
           [Capability.fan_speed; "light"; Capability.switch]
           STANDARD_FAN_CAPABILITIES).
  reflexivity.
Defined.

Lemma setup_empty_iff_witness :
  (length [Fan (SmartThingsFan.mk sample_bare_device);
           Fan (SmartThingsFan.mk (sample_fan_device 2))]
   <= length (devices sample_broker))%nat.
Proof.
  destruct (setup_empty_iff sample_brokers "entry" sample_broker
              [Fan (SmartThingsFan.mk sample_bare_device);
               Fan (SmartThingsFan.mk (sample_fan_device 2))]
              eq_refl eq_refl) as [_ Hle].
  exact Hle.
Defined.

Lemma setup_keeps_order_witness :
  exists chosen : list DeviceEntity,
    sublist chosen (List.map snd (devices sample_broker)) /\
    [Fan (SmartThingsFan.mk sample_bare_device);
     Fan (SmartThingsFan.mk (sample_fan_device 2))]
    = List.map (fun device => Fan (SmartThingsFan.mk device)) chosen.
Proof.
  apply (setup_keeps_order sample_brokers "entry" sample_broker
           [Fan (SmartThingsFan.mk sample_bare_device);
            Fan (SmartThingsFan.mk (sample_fan_device 2))]
           eq_refl eq_refl).
Defined.

Lemma hood_init_maximum_first_witness :
  SmartThingsHoodFan.__init__
    (sample_hood_device
       [("settableMaxFanSpeed", VStr "fast"); ("hoodFanSpeed", VNone)])
  = Raise ValueError.
Proof.
  apply (hood_init_maximum_first
           (sample_hood_device
              [("settableMaxFanSpeed", VStr "fast"); ("hoodFanSpeed", VNone)])
           (sample_hood_component
              [("settableMaxFanSpeed", VStr "fast"); ("hoodFanSpeed", VNone)])
           (mkAttribute (VStr "fast")) ValueError);
    reflexivity.
Defined.
